(** * visor/readable.go: readable forms of ledger entities and the
      transaction JSON codec

    A shallow embedding of [src/visor/readable.go].  Go values are modelled
    as follows.

    - [uint8], [uint32] and [uint64] fields are integers in [Z]; the code
      under study only copies and compares them.
    - [cipher.SHA256] ([[32]byte]) and [cipher.Sig] ([[65]byte]) are lists
      of bytes; a slice is a list (a nil slice and an empty slice are both
      the empty list, the code never tells them apart).
    - A Go function that can panic returns an [outcome]; a function
      returning [(T, error)] returns a pair of a value and an optional
      error message, as in Go, where both components always exist.
    - Statements inside a function body complete in one of three ways,
      [flow]: fall through to the next statement, [return] from the
      enclosing function, or panic.
    - The packages [cipher] and [coin] and the JSON library are
      collaborators, consumed through the interfaces [Cipher], [Coin] and
      [Json]. *)

From Stdlib Require Import ZArith String Ascii Strings.Byte.
From stdpp Require Import base tactics option list strings pretty.

(** ** Go control flow *)

(** The value a Go [error] built by [errors.New] carries: its message. *)
Definition error : Type := string.

(** [errors.New(msg)]. *)
Definition errors_New (msg : string) : error := msg.

(** Result of calling a Go function: it returns, or it panics. *)
Inductive outcome (A : Type) : Type :=
| Returned (a : A)
| Panicked (msg : string).
Arguments Returned {A} a.
Arguments Panicked {A} msg.

(** Completion of a statement inside a function whose result type is [R]. *)
Inductive flow (R A : Type) : Type :=
| Next (a : A)
| Return (r : R)
| Panic (msg : string).
Arguments Next {R A} a.
Arguments Return {R A} r.
Arguments Panic {R A} msg.

#[global] Instance flow_ret {R} : MRet (flow R) := fun _ a => Next a.
#[global] Instance flow_bind {R} : MBind (flow R) := fun _ _ k m =>
  match m with
  | Next a => k a
  | Return r => Return r
  | Panic msg => Panic msg
  end.

(** A function body: falling off the end with the value [r] and
    [return r] are the same for the caller. *)
Definition body {R} (m : flow R R) : outcome R :=
  match m with
  | Next r => Returned r
  | Return r => Returned r
  | Panic msg => Panicked msg
  end.

(** Calling a function that may panic from inside a body. *)
Definition call {R A} (o : outcome A) : flow R A :=
  match o with
  | Returned a => Next a
  | Panicked msg => Panic msg
  end.

(** [log.Panic(msg)]: prints [msg] and panics with it. *)
Definition log_Panic {R} (msg : string) : flow R unit := Panic msg.

(** [make([]T, n)]: a slice of [n] zero values. *)
Definition make {A} (zero : A) (n : nat) : list A := replicate n zero.

(** [s[i]] as an expression: panics when [i] is out of range. *)
Definition index {R A} (s : list A) (i : nat) : flow R A :=
  match s !! i with
  | Some x => Next x
  | None => Panic "runtime error: index out of range"
  end.

(** [s[i] = x]: panics when [i] is out of range. *)
Definition store {R A} (s : list A) (i : nat) (x : A) : flow R (list A) :=
  if decide (i < length s)%nat then Next (<[i:=x]> s)
  else Panic "runtime error: index out of range".

(** [for i, x := range xs { ... }] with loop-carried state [St]. *)
Fixpoint for_range_from {R A St} (i : nat) (xs : list A)
    (step : nat -> A -> St -> flow R St) (st : St) : flow R St :=
  match xs with
  | [] => Next st
  | x :: rest => st' ← step i x st; for_range_from (S i) rest step st'
  end.

Definition for_range {R A St} (xs : list A)
    (step : nat -> A -> St -> flow R St) (st : St) : flow R St :=
  for_range_from 0 xs step st.

(** ** Transaction status (lines 38-79) *)

Module TransactionStatus.
Record t : Type := mk {
  Unconfirmed : bool;
  Unknown : bool;
  Confirmed : bool;
  Height : Z
}.
End TransactionStatus.

Definition NewUnconfirmedTransactionStatus : TransactionStatus.t :=
  {| TransactionStatus.Unconfirmed := true;
     TransactionStatus.Unknown := false;
     TransactionStatus.Confirmed := false;
     TransactionStatus.Height := 0 |}.

Definition NewUnknownTransactionStatus : TransactionStatus.t :=
  {| TransactionStatus.Unconfirmed := false;
     TransactionStatus.Unknown := true;
     TransactionStatus.Confirmed := false;
     TransactionStatus.Height := 0 |}.

Definition NewConfirmedTransactionStatus (height : Z) : outcome TransactionStatus.t :=
  body (
    (if decide (height = 0)%Z
     then log_Panic "Invalid confirmed transaction height"
     else mret tt);;
    Return {| TransactionStatus.Unconfirmed := false;
              TransactionStatus.Unknown := false;
              TransactionStatus.Confirmed := true;
              TransactionStatus.Height := height |}).

(** Number of flags of a status that are set. *)
Definition active_flags (s : TransactionStatus.t) : nat :=
  (if TransactionStatus.Unconfirmed s then 1 else 0)
  + (if TransactionStatus.Unknown s then 1 else 0)
  + (if TransactionStatus.Confirmed s then 1 else 0).

(** ** Entities of the packages [cipher] and [coin]

    The declarations of these types are not part of [readable.go]; the
    records list the fields the file reads and writes. *)

Module cipher.
(** [cipher.SHA256], [cipher.Sig] and [cipher.Address] in binary form. *)
Definition SHA256 : Type := list byte.
Definition Sig : Type := list byte.
Definition Address : Type := list byte.
End cipher.

Module coin.

Module TransactionOutput.
Record t : Type := mk {
  Address : cipher.Address;
  Coins : Z;
  Hours : Z
}.
End TransactionOutput.

Module Transaction.
Record t : Type := mk {
  Length : Z;
  Type_ : Z;
  InnerHash : cipher.SHA256;
  Sigs : list cipher.Sig;
  In : list cipher.SHA256;
  Out : list TransactionOutput.t
}.
Definition with_Sigs (x : list cipher.Sig) (tx : t) : t :=
  mk (Length tx) (Type_ tx) (InnerHash tx) x (In tx) (Out tx).
Definition with_In (x : list cipher.SHA256) (tx : t) : t :=
  mk (Length tx) (Type_ tx) (InnerHash tx) (Sigs tx) x (Out tx).
Definition with_Out (x : list TransactionOutput.t) (tx : t) : t :=
  mk (Length tx) (Type_ tx) (InnerHash tx) (Sigs tx) (In tx) x.
Definition with_Length (x : Z) (tx : t) : t :=
  mk x (Type_ tx) (InnerHash tx) (Sigs tx) (In tx) (Out tx).
Definition with_Type (x : Z) (tx : t) : t :=
  mk (Length tx) x (InnerHash tx) (Sigs tx) (In tx) (Out tx).
End Transaction.

Module UxBody.
Record t : Type := mk {
  Address : cipher.Address;
  Coins : Z;
  Hours : Z
}.
End UxBody.

Module UxOut.
Record t : Type := mk { Body : UxBody.t }.
End UxOut.

Module BlockHeader.
Record t : Type := mk {
  Version : Z; Time : Z; BkSeq : Z; Fee : Z;
  PrevHash : cipher.SHA256;
  BodyHash : cipher.SHA256
}.
End BlockHeader.

Module BlockBody.
Record t : Type := mk { Transactions : list Transaction.t }.
End BlockBody.

Module Block.
Record t : Type := mk { Head : BlockHeader.t; Body : BlockBody.t }.
End Block.

(** The unspent-output set and the chain.  [Pool] is only measured with
    [len], so it is modelled by the list of its entries. *)
Module UnspentPool.
Record t : Type := mk { Pool : list UxOut.t }.
End UnspentPool.

Module Blockchain.
Record t : Type := mk { Blocks : list Block.t; Unspent : UnspentPool.t }.
End Blockchain.

End coin.

(** ** Collaborator interfaces *)

(** Package [cipher]: hex and checksummed-text primitives, and the zero
    values of its fixed-size types. *)
Class Cipher : Type := {
  SHA256_zero : cipher.SHA256;
  Sig_zero : cipher.Sig;
  Address_zero : cipher.Address;
  SHA256_Hex : cipher.SHA256 -> string;
  Sig_Hex : cipher.Sig -> string;
  SigFromHex : string -> cipher.Sig * option error;
  Address_String : cipher.Address -> string;
  DecodeBase58Address : string -> cipher.Address * option error
}.

(** Package [coin]: hashing, canonical size and structural verification of
    a transaction, the identifier of an unspent output, the head of the
    chain. *)
Class Coin : Type := {
  Transaction_Hash : coin.Transaction.t -> cipher.SHA256;
  Transaction_Size : coin.Transaction.t -> Z;
  Transaction_Verify : coin.Transaction.t -> option error;
  UxOut_Hash : coin.UxOut.t -> cipher.SHA256;
  Blockchain_Head : coin.Blockchain.t -> outcome coin.Block.t
}.

(** Zero values [coin.TransactionOutput{}] and [coin.Transaction{}]. *)
Definition TransactionOutput_zero `{Cipher} : coin.TransactionOutput.t :=
  {| coin.TransactionOutput.Address := Address_zero;
     coin.TransactionOutput.Coins := 0;
     coin.TransactionOutput.Hours := 0 |}.

Definition Transaction_zero `{Cipher} : coin.Transaction.t :=
  {| coin.Transaction.Length := 0;
     coin.Transaction.Type_ := 0;
     coin.Transaction.InnerHash := SHA256_zero;
     coin.Transaction.Sigs := [];
     coin.Transaction.In := [];
     coin.Transaction.Out := [] |}.

(** ** Readable forms (lines 99-219) *)

Module ReadableTransactionOutput.
Record t : Type := mk { Address : string; Coins : Z; Hours : Z }.
Definition zero : t := mk EmptyString 0 0.
End ReadableTransactionOutput.

Definition NewReadableTransactionOutput `{Cipher}
    (t : coin.TransactionOutput.t) : ReadableTransactionOutput.t :=
  {| ReadableTransactionOutput.Address :=
       Address_String (coin.TransactionOutput.Address t);
     ReadableTransactionOutput.Coins := coin.TransactionOutput.Coins t;
     ReadableTransactionOutput.Hours := coin.TransactionOutput.Hours t |}.

Module ReadableOutput.
Record t : Type := mk { Hash : string; Address : string; Coins : Z; Hours : Z }.
End ReadableOutput.

Definition NewReadableOutput `{Cipher} `{Coin}
    (t : coin.UxOut.t) : ReadableOutput.t :=
  {| ReadableOutput.Hash := SHA256_Hex (UxOut_Hash t);
     ReadableOutput.Address :=
       Address_String (coin.UxBody.Address (coin.UxOut.Body t));
     ReadableOutput.Coins := coin.UxBody.Coins (coin.UxOut.Body t);
     ReadableOutput.Hours := coin.UxBody.Hours (coin.UxOut.Body t) |}.

Module ReadableTransaction.
Record t : Type := mk {
  Length : Z;
  Type_ : Z;
  Hash : string;
  InnerHash : string;
  Sigs : list string;
  In : list string;
  Out : list ReadableTransactionOutput.t
}.
Definition zero : t := mk 0 0 EmptyString EmptyString [] [] [].
End ReadableTransaction.

(** [dst := make([]B, len(src)); for i, _ := range src { dst[i] = f(src[i]) }],
    the shape of every loop of the mappers. *)
Definition fill_by_index {R A B} (zero : B) (f : A -> B) (src : list A)
    : flow R (list B) :=
  for_range src
    (fun i _ dst => x ← index src i; store dst i (f x))
    (make zero (length src)).

Definition NewReadableTransaction `{Cipher} `{Coin}
    (t : coin.Transaction.t) : outcome ReadableTransaction.t :=
  body (
    sigs ← fill_by_index EmptyString Sig_Hex (coin.Transaction.Sigs t);
    in_ ← fill_by_index EmptyString SHA256_Hex (coin.Transaction.In t);
    out ← fill_by_index ReadableTransactionOutput.zero
            NewReadableTransactionOutput (coin.Transaction.Out t);
    Return {| ReadableTransaction.Length := coin.Transaction.Length t;
              ReadableTransaction.Type_ := coin.Transaction.Type_ t;
              ReadableTransaction.Hash := SHA256_Hex (Transaction_Hash t);
              ReadableTransaction.InnerHash :=
                SHA256_Hex (coin.Transaction.InnerHash t);
              ReadableTransaction.Sigs := sigs;
              ReadableTransaction.In := in_;
              ReadableTransaction.Out := out |}).

Module ReadableBlockHeader.
Record t : Type := mk {
  Version : Z; Time : Z; BkSeq : Z; Fee : Z;
  PrevHash : string;
  BodyHash : string
}.
End ReadableBlockHeader.

Definition NewReadableBlockHeader `{Cipher}
    (b : coin.BlockHeader.t) : ReadableBlockHeader.t :=
  {| ReadableBlockHeader.Version := coin.BlockHeader.Version b;
     ReadableBlockHeader.Time := coin.BlockHeader.Time b;
     ReadableBlockHeader.BkSeq := coin.BlockHeader.BkSeq b;
     ReadableBlockHeader.Fee := coin.BlockHeader.Fee b;
     ReadableBlockHeader.PrevHash := SHA256_Hex (coin.BlockHeader.PrevHash b);
     ReadableBlockHeader.BodyHash := SHA256_Hex (coin.BlockHeader.BodyHash b) |}.

Module ReadableBlockBody.
Record t : Type := mk { Transactions : list ReadableTransaction.t }.
End ReadableBlockBody.

Definition NewReadableBlockBody `{Cipher} `{Coin}
    (b : coin.BlockBody.t) : outcome ReadableBlockBody.t :=
  body (
    txns ← for_range (coin.BlockBody.Transactions b)
      (fun i _ txns =>
         x ← index (coin.BlockBody.Transactions b) i;
         r ← call (NewReadableTransaction x);
         store txns i r)
      (make ReadableTransaction.zero (length (coin.BlockBody.Transactions b)));
    Return {| ReadableBlockBody.Transactions := txns |}).

Module ReadableBlock.
Record t : Type := mk { Head : ReadableBlockHeader.t; Body : ReadableBlockBody.t }.
End ReadableBlock.

Definition NewReadableBlock `{Cipher} `{Coin}
    (b : coin.Block.t) : outcome ReadableBlock.t :=
  body (
    bd ← call (NewReadableBlockBody (coin.Block.Body b));
    Return {| ReadableBlock.Head := NewReadableBlockHeader (coin.Block.Head b);
              ReadableBlock.Body := bd |}).

(** ** Chain snapshot (lines 13-29) *)

Module UnconfirmedTxnPool.
(** [Txns] is only measured with [len]: the list of its entries. *)
Record t : Type := mk { Txns : list coin.Transaction.t }.
End UnconfirmedTxnPool.

Module Visor.
Record t : Type := mk {
  Blockchain : coin.Blockchain.t;
  Unconfirmed : UnconfirmedTxnPool.t
}.
End Visor.

Module BlockchainMetadata.
Record t : Type := mk {
  Head : ReadableBlockHeader.t;
  Unspents : Z;
  Unconfirmed : Z
}.
End BlockchainMetadata.

(** [uint64(len(s))]. *)
Definition uint64_len {A} (s : list A) : Z := (Z.of_nat (length s) mod 2 ^ 64)%Z.

(** The function receives a pointer to the visor and reads through it.
    A computation over that shared state takes the visor the pointer
    refers to and gives back the visor it leaves behind, so that what a
    call does to the state is part of its meaning.  The collaborator
    [Head()] is a read of the chain. *)
Definition visor_op (A : Type) : Type := Visor.t -> outcome A * Visor.t.

Definition op_ret {A} (a : A) : visor_op A := fun v => (Returned a, v).

Definition op_bind {A B} (m : visor_op A) (k : A -> visor_op B) : visor_op B :=
  fun v =>
    match m v with
    | (Returned a, v') => k a v'
    | (Panicked msg, v') => (Panicked msg, v')
    end.

(** Reading a field path of [*v]. *)
Definition op_read {A} (f : Visor.t -> A) : visor_op A := fun v => (Returned (f v), v).

(** Calling a read-only method on a field of [*v]. *)
Definition op_call {A} (f : Visor.t -> outcome A) : visor_op A := fun v => (f v, v).

Definition NewBlockchainMetadata `{Cipher} `{Coin} : visor_op BlockchainMetadata.t :=
  op_bind (op_call (fun v => Blockchain_Head (Visor.Blockchain v))) (fun blk =>
  let head := coin.Block.Head blk in
  op_bind (op_read (fun v =>
    coin.UnspentPool.Pool (coin.Blockchain.Unspent (Visor.Blockchain v)))) (fun pool =>
  op_bind (op_read (fun v => UnconfirmedTxnPool.Txns (Visor.Unconfirmed v))) (fun txns =>
  op_ret {| BlockchainMetadata.Head := NewReadableBlockHeader head;
            BlockchainMetadata.Unspents := uint64_len pool;
            BlockchainMetadata.Unconfirmed := uint64_len txns |}))).

(** Two snapshot calls in a row, with nothing in between. *)
Definition snapshot_twice `{Cipher} `{Coin} (v : Visor.t)
    : outcome BlockchainMetadata.t * outcome BlockchainMetadata.t * Visor.t :=
  let '(r1, v1) := NewBlockchainMetadata v in
  let '(r2, v2) := NewBlockchainMetadata v1 in
  (r1, r2, v2).

(** [visor.Transaction]: a transaction tagged with its status. *)
Module Transaction.
Record t : Type := mk { Txn : coin.Transaction.t; Status : TransactionStatus.t }.
End Transaction.

(** ** Transactions to and from JSON (lines 221-325) *)

Module TransactionOutputJSON.
Record t : Type := mk { Address : string; Coins : Z; Hours : Z }.
Definition zero : t := mk EmptyString 0 0.
End TransactionOutputJSON.

Definition NewTransactionOutputJSON `{Cipher}
    (ux : coin.TransactionOutput.t) : TransactionOutputJSON.t :=
  {| TransactionOutputJSON.Address :=
       Address_String (coin.TransactionOutput.Address ux);
     TransactionOutputJSON.Coins := coin.TransactionOutput.Coins ux;
     TransactionOutputJSON.Hours := coin.TransactionOutput.Hours ux |}.

Definition TransactionOutputFromJSON `{Cipher}
    (in_ : TransactionOutputJSON.t) : coin.TransactionOutput.t * option error :=
  let '(addr, err) := DecodeBase58Address (TransactionOutputJSON.Address in_) in
  if err is Some _ then (TransactionOutput_zero, Some (errors_New "Adress decode fail"))
  else
    ({| coin.TransactionOutput.Address := addr;
        coin.TransactionOutput.Coins := TransactionOutputJSON.Coins in_;
        coin.TransactionOutput.Hours := TransactionOutputJSON.Hours in_ |},
     None).

Module TransactionJSON.
Record t : Type := mk {
  Hash : string;
  InnerHash : string;
  Sigs : list string;
  In : list string;
  Out : list TransactionOutputJSON.t
}.
Definition zero : t := mk EmptyString EmptyString [] [] [].
Definition with_Sigs (x : list string) (o : t) : t :=
  mk (Hash o) (InnerHash o) x (In o) (Out o).
Definition with_In (x : list string) (o : t) : t :=
  mk (Hash o) (InnerHash o) (Sigs o) x (Out o).
Definition with_Out (x : list TransactionOutputJSON.t) (o : t) : t :=
  mk (Hash o) (InnerHash o) (Sigs o) (In o) x.
End TransactionJSON.

(** Package [encoding/json], as this file calls it.
    [json_MarshalIndent o prefix indent] is the text and the error of
    [json.MarshalIndent(o, prefix, indent)].  [json_Unmarshal_value data v]
    is the error of [json.Unmarshal(data, v)] where [v] is a
    [TransactionJSON] *value*: the callee receives a copy, so all it can
    give back to the caller is its error. *)
Class Json : Type := {
  json_MarshalIndent : TransactionJSON.t -> string -> string -> string * option error;
  json_Unmarshal_value : string -> TransactionJSON.t -> option error
}.

Definition TransactionToJSON `{Cipher} `{Coin} `{Json}
    (tx : coin.Transaction.t) : outcome string :=
  body (
    let o := TransactionJSON.zero in
    (if Transaction_Verify tx is Some _
     then log_Panic "Transaction Invalid: Cannot serialize to JSON"
     else mret tt);;
    let o := TransactionJSON.with_Sigs (make EmptyString (length (coin.Transaction.Sigs tx))) o in
    let o := TransactionJSON.with_In (make EmptyString (length (coin.Transaction.In tx))) o in
    let o := TransactionJSON.with_Out
               (make TransactionOutputJSON.zero (length (coin.Transaction.Out tx))) o in
    o ← for_range (coin.Transaction.Sigs tx)
          (fun i sig o =>
             s ← store (TransactionJSON.Sigs o) i (Sig_Hex sig);
             mret (TransactionJSON.with_Sigs s o)) o;
    o ← for_range (coin.Transaction.In tx)
          (fun i x o =>
             s ← store (TransactionJSON.In o) i (SHA256_Hex x);
             mret (TransactionJSON.with_In s o)) o;
    o ← for_range (coin.Transaction.Out tx)
          (fun i y o =>
             s ← store (TransactionJSON.Out o) i (NewTransactionOutputJSON y);
             mret (TransactionJSON.with_Out s o)) o;
    let '(b, err) := json_MarshalIndent o EmptyString "  " in
    (if err is Some _
     then log_Panic "Cannot serialize transaction as JSON"
     else mret tt);;
    Return b).

(** The value of [o] in [TransactionToJSON] when its three loops have run
    (lemma [TransactionToJSON_verified]): what is handed to
    [json.MarshalIndent]. *)
Definition encoded_document `{Cipher} (tx : coin.Transaction.t) : TransactionJSON.t :=
  {| TransactionJSON.Hash := EmptyString;
     TransactionJSON.InnerHash := EmptyString;
     TransactionJSON.Sigs := Sig_Hex <$> coin.Transaction.Sigs tx;
     TransactionJSON.In := SHA256_Hex <$> coin.Transaction.In tx;
     TransactionJSON.Out := NewTransactionOutputJSON <$> coin.Transaction.Out tx |}.

(** Lines 299-324 of [TransactionFromJSON].  The source names the parsed
    document in three ways: [TxIn] where it is declared, [txIn] in the
    loop headers and [o] everywhere else.  [decode_steps] keeps the last
    two apart as written; [TransactionFromJSON] below binds both to the
    declared variable. *)
Definition decode_steps `{Cipher} `{Coin} (txIn o : TransactionJSON.t)
    : flow (coin.Transaction.t * option error) (coin.Transaction.t * option error) :=
  let tx := Transaction_zero in
  let tx := coin.Transaction.with_Sigs (make Sig_zero (length (TransactionJSON.Sigs o))) tx in
  let tx := coin.Transaction.with_In (make SHA256_zero (length (TransactionJSON.In o))) tx in
  let tx := coin.Transaction.with_Out
              (make TransactionOutput_zero (length (TransactionJSON.Out o))) tx in
  tx ← for_range (TransactionJSON.Sigs txIn)
         (fun i sig tx =>
            s ← index (TransactionJSON.In o) i;
            let '(sig2, err) := SigFromHex s in
            (if err is Some _
             then Return (Transaction_zero, Some (errors_New "invalid signature"))
             else mret tt);;
            sigs ← store (coin.Transaction.Sigs tx) i sig2;
            mret (coin.Transaction.with_Sigs sigs tx)) tx;
  tx ← for_range (TransactionJSON.In txIn)
         (fun i in_ tx =>
            s ← index (TransactionJSON.In o) i;
            let '(sig2, err) := SigFromHex s in
            (if err is Some _
             then Return (Transaction_zero, Some (errors_New "invalid signature"))
             else mret tt);;
            sigs ← store (coin.Transaction.Sigs tx) i sig2;
            mret (coin.Transaction.with_Sigs sigs tx)) tx;
  let tx := coin.Transaction.with_Length (Transaction_Size tx) tx in
  let tx := coin.Transaction.with_Type 0 tx in
  Return (Transaction_zero, None).

(** The result every failing path of [decode_steps] returns. *)
Definition decode_failure `{Cipher} : coin.Transaction.t * option error :=
  (Transaction_zero, Some (errors_New "invalid signature")).

(** [TransactionFromJSON] from its first line.  [TxIn] is declared with
    its zero value and handed to [json.Unmarshal] by value, so it still
    holds the zero value afterwards; the error built when parsing fails is
    not returned. *)
Definition TransactionFromJSON `{Cipher} `{Coin} `{Json} (str : string)
    : outcome (coin.Transaction.t * option error) :=
  body (
    let TxIn := TransactionJSON.zero in
    let err := json_Unmarshal_value str TxIn in
    (if err is Some _
     then let _ := errors_New "cannot deserialize" in mret tt
     else mret tt);;
    decode_steps TxIn TxIn).

(** ** An implementation of the collaborator interfaces

    Used to run the definitions above on concrete transactions and
    documents.  Hex is Go's [encoding/hex].  The packages [cipher] and
    [coin] are not part of [readable.go]; their operations are modelled
    from what the specification says of them, with a one-byte checksum
    and digest and a signature scheme without keys in place of the
    cryptographic ones. *)

#[global] Instance byte_eq_dec : EqDecision byte := Byte.byte_eq_dec.

Module hex.

Definition hextable : string := "0123456789abcdef".

Definition digit (n : N) : ascii :=
  match String.get (N.to_nat n) hextable with
  | Some c => c
  | None => "0"%char
  end.

(** [hex.EncodeToString]. *)
Fixpoint EncodeToString (src : list byte) : string :=
  match src with
  | [] => EmptyString
  | b :: rest =>
      String (digit (Byte.to_N b / 16))
        (String (digit (Byte.to_N b mod 16)) (EncodeToString rest))
  end.

Definition fromHexChar (c : ascii) : option N :=
  let n := N_of_ascii c in
  if (48 <=? n)%N && (n <=? 57)%N then Some (n - 48)%N
  else if (97 <=? n)%N && (n <=? 102)%N then Some (n - 97 + 10)%N
  else if (65 <=? n)%N && (n <=? 70)%N then Some (n - 65 + 10)%N
  else None.

(** [hex.DecodeString]; [None] stands for its error (a character that is
    not a hex digit, or an odd length). *)
Fixpoint DecodeString (s : string) : option (list byte) :=
  match s with
  | EmptyString => Some []
  | String a (String b rest) =>
      hi ← fromHexChar a;
      lo ← fromHexChar b;
      x ← Byte.of_N (hi * 16 + lo);
      bs ← DecodeString rest;
      Some (x :: bs)
  | String _ EmptyString => None
  end.

End hex.

Module Sample.

Definition zeros (n : nat) : list byte := replicate n x00.

(** Modelled from the spec: [cipher.SigFromHex], "decode fixed-length hex
    into a signature value; a non-hex or wrong-length string fails". *)
Definition fixed_from_hex (n : nat) (s : string) : list byte * option error :=
  match hex.DecodeString s with
  | None => (zeros n, Some "invalid hex")
  | Some bs =>
      if decide (length bs = n) then (bs, None)
      else (zeros n, Some "invalid length")
  end.

(** Modelled from the spec: the checksum of the address text form; here
    one byte, the sum of the bytes modulo 256. *)
Definition checksum (bs : list byte) : byte :=
  let s := foldr (fun b acc => (Byte.to_N b + acc)%N) 0%N bs in
  default x00 (Byte.of_N (s mod 256)).

Definition address_len : nat := 21.

(** Modelled from the spec: [cipher.Address.String] and
    [cipher.DecodeBase58Address], "checksummed text encode/decode for
    addresses"; the text is the hex of the address followed by its
    checksum. *)
Definition address_text (a : list byte) : string :=
  hex.EncodeToString (a ++ [checksum a]).

(** Modelled from the spec: [cipher.DecodeBase58Address]; a text that is
    not the text of an address of the right length with its checksum is
    refused. *)
Definition address_parse (s : string) : list byte * option error :=
  match hex.DecodeString s with
  | None => (zeros address_len, Some "invalid address text")
  | Some bs =>
      let a := take address_len bs in
      if decide (bs = a ++ [checksum a]) then
        if decide (length a = address_len) then (a, None)
        else (zeros address_len, Some "invalid address length")
      else (zeros address_len, Some "invalid checksum")
  end.

Definition cipher_ops : Cipher := {|
  SHA256_zero := zeros 32;
  Sig_zero := zeros 65;
  Address_zero := zeros address_len;
  SHA256_Hex := hex.EncodeToString;
  Sig_Hex := hex.EncodeToString;
  SigFromHex := fixed_from_hex 65;
  Address_String := address_text;
  DecodeBase58Address := address_parse
|}.

(** Modelled from the spec: "a deterministic fixed-size hash of a byte
    sequence"; here 32 copies of the checksum. *)
Definition digest (bs : list byte) : cipher.SHA256 := replicate 32 (checksum bs).

Definition transaction_bytes (t : coin.Transaction.t) : list byte :=
  coin.Transaction.InnerHash t
  ++ concat (coin.Transaction.Sigs t)
  ++ concat (coin.Transaction.In t)
  ++ concat (coin.TransactionOutput.Address <$> coin.Transaction.Out t).

Definition has_duplicate (l : list cipher.SHA256) : bool :=
  bool_decide (¬ NoDup l).

(** Modelled from the spec: [coin.Transaction.Size], the "byte size of
    canonical encoding": fixed-size header fields, then each list with a
    four-byte count. *)
Definition size (t : coin.Transaction.t) : Z :=
  (37 + (4 + 65 * Z.of_nat (length (coin.Transaction.Sigs t)))
      + (4 + 32 * Z.of_nat (length (coin.Transaction.In t)))
      + (4 + 37 * Z.of_nat (length (coin.Transaction.Out t))))%Z.

(** Eight bytes of a [uint64], least significant first. *)
Definition uint64_bytes (n : Z) : list byte :=
  (fun k => default x00 (Byte.of_N (Z.to_N ((n / 256 ^ Z.of_nat k) mod 256))))
    <$> seq 0 8.

Definition output_bytes (o : coin.TransactionOutput.t) : list byte :=
  coin.TransactionOutput.Address o
  ++ uint64_bytes (coin.TransactionOutput.Coins o)
  ++ uint64_bytes (coin.TransactionOutput.Hours o).

(** Modelled from the spec: the inner hash, "hash of a transaction's
    content excluding its signatures, the value actually signed". *)
Definition hash_inner (t : coin.Transaction.t) : cipher.SHA256 :=
  digest (concat (coin.Transaction.In t)
          ++ concat (output_bytes <$> coin.Transaction.Out t)).

(** Modelled from the spec: a signature over a hash.  The stand-in scheme
    has no keys: the one valid signature over [h] is a marker byte
    followed by [h] twice, 65 bytes for a 32-byte hash. *)
Definition sign (h : cipher.SHA256) : cipher.Sig := x01 :: h ++ h.

Definition signs (h : cipher.SHA256) (sig : cipher.Sig) : bool :=
  bool_decide (sig = sign h).

(** Modelled from the spec: [coin.Transaction.Verify], external structural
    verification: "no duplicate inputs, non-empty inputs/outputs, valid
    signatures over inner hash", "input count == signature count", the
    inner hash is the hash of the content, the type tag is the default
    type 0 and the length is the byte size of the canonical encoding. *)
Definition verify (t : coin.Transaction.t) : option error :=
  if decide (coin.Transaction.In t = []) then Some "No inputs"
  else if decide (coin.Transaction.Out t = []) then Some "No outputs"
  else if decide (length (coin.Transaction.Sigs t) = length (coin.Transaction.In t))
  then if has_duplicate (coin.Transaction.In t) then Some "Duplicate spend"
       else if decide (coin.Transaction.InnerHash t = hash_inner t)
       then if decide (coin.Transaction.Type_ t = 0%Z)
            then if decide (coin.Transaction.Length t = size t)
                 then if forallb (signs (coin.Transaction.InnerHash t))
                           (coin.Transaction.Sigs t)
                      then None
                      else Some "Invalid signature"
                 else Some "Invalid length"
            else Some "Invalid type"
       else Some "Invalid inner hash"
  else Some "Invalid number of signatures".

(** Modelled from the spec: [coin.Blockchain.Head], the current head of
    the chain; a chain without a head is a precondition violation. *)
Definition head (bc : coin.Blockchain.t) : outcome coin.Block.t :=
  match last (coin.Blockchain.Blocks bc) with
  | Some b => Returned b
  | None => Panicked "runtime error: index out of range"
  end.

Definition coin_ops : Coin := {|
  Transaction_Hash := fun t => digest (transaction_bytes t);
  Transaction_Size := size;
  Transaction_Verify := verify;
  UxOut_Hash := fun u => digest (coin.UxBody.Address (coin.UxOut.Body u));
  Blockchain_Head := head
|}.

(** [json.MarshalIndent] on a [TransactionJSON]: one member per line, an
    empty array as [[]].  The strings of a document are hex and address
    text and need no escaping. *)
Definition quote : string := String "034"%char EmptyString.
Definition newline : string := String "010"%char EmptyString.

Definition json_string (s : string) : string := quote +:+ s +:+ quote.

Definition json_member (name value : string) : string :=
  json_string name +:+ ": " +:+ value.

Fixpoint join (sep : string) (items : list string) : string :=
  match items with
  | [] => EmptyString
  | [x] => x
  | x :: rest => x +:+ sep +:+ join sep rest
  end.

(** [opening] and [closing] around [items], each item on a line of its own
    at the start of line [line] plus one [indent]. *)
Definition json_block (opening closing line indent : string)
    (items : list string) : string :=
  match items with
  | [] => opening +:+ closing
  | _ =>
      opening +:+ newline +:+ line +:+ indent
      +:+ join ("," +:+ newline +:+ line +:+ indent) items
      +:+ newline +:+ line +:+ closing
  end.

Definition json_output (line indent : string) (o : TransactionOutputJSON.t) : string :=
  json_block "{" "}" line indent
    [ json_member "address" (json_string (TransactionOutputJSON.Address o));
      json_member "coins" (pretty (TransactionOutputJSON.Coins o));
      json_member "hours" (pretty (TransactionOutputJSON.Hours o)) ].

Definition marshal_indent (o : TransactionJSON.t) (prefix indent : string)
    : string * option error :=
  let inner := prefix +:+ indent in
  (json_block "{" "}" prefix indent
     [ json_member "hash" (json_string (TransactionJSON.Hash o));
       json_member "inner_hash" (json_string (TransactionJSON.InnerHash o));
       json_member "sigs"
         (json_block "[" "]" inner indent (json_string <$> TransactionJSON.Sigs o));
       json_member "in"
         (json_block "[" "]" inner indent (json_string <$> TransactionJSON.In o));
       json_member "out"
         (json_block "[" "]" inner indent
            (json_output (inner +:+ indent) indent <$> TransactionJSON.Out o)) ],
   None).

(** [json.Unmarshal] refuses a destination that is not a pointer. *)
Definition unmarshal_value (data : string) (v : TransactionJSON.t) : option error :=
  Some "json: Unmarshal(non-pointer visor.TransactionJSON)".

Definition json_ops : Json := {|
  json_MarshalIndent := marshal_indent;
  json_Unmarshal_value := unmarshal_value
|}.

(** *** Concrete transactions and documents *)

Definition addr1 : cipher.Address := replicate 21 x03.
Definition addr2 : cipher.Address := replicate 21 x04.

(** The content of [tx1] before it is hashed and signed. *)
Definition tx1_content : coin.Transaction.t :=
  {| coin.Transaction.Length := 0;
     coin.Transaction.Type_ := 0;
     coin.Transaction.InnerHash := zeros 32;
     coin.Transaction.Sigs := [];
     coin.Transaction.In := [replicate 32 x01];
     coin.Transaction.Out :=
       [ coin.TransactionOutput.mk addr1 100 5;
         coin.TransactionOutput.mk addr2 50 0 ] |}.

(** One input, one signature, two outputs of (100, 5) and (50, 0); the
    inner hash is the hash of the content, the signature signs it, the
    length is the size. *)
Definition tx1 : coin.Transaction.t :=
  {| coin.Transaction.Length := 220;
     coin.Transaction.Type_ := 0;
     coin.Transaction.InnerHash := hash_inner tx1_content;
     coin.Transaction.Sigs := [sign (hash_inner tx1_content)];
     coin.Transaction.In := [replicate 32 x01];
     coin.Transaction.Out :=
       [ coin.TransactionOutput.mk addr1 100 5;
         coin.TransactionOutput.mk addr2 50 0 ] |}.

(** No inputs: fails verification. *)
Definition tx_no_inputs : coin.Transaction.t :=
  {| coin.Transaction.Length := 86;
     coin.Transaction.Type_ := 0;
     coin.Transaction.InnerHash := replicate 32 x07;
     coin.Transaction.Sigs := [];
     coin.Transaction.In := [];
     coin.Transaction.Out := [ coin.TransactionOutput.mk addr1 100 5 ] |}.

(** Hex text of a 65-byte value, and a string that is not hex. *)
Definition good_hex : string := hex.EncodeToString (replicate 65 x02).
Definition bad_hex : string := "zz".

Definition doc (sigs ins : list string) (outs : list TransactionOutputJSON.t)
    : TransactionJSON.t :=
  {| TransactionJSON.Hash := EmptyString;
     TransactionJSON.InnerHash := EmptyString;
     TransactionJSON.Sigs := sigs;
     TransactionJSON.In := ins;
     TransactionJSON.Out := outs |}.

(** The text of a document. *)
Definition text (d : TransactionJSON.t) : string :=
  fst (marshal_indent d EmptyString "  ").

(** An output entry whose address text has a wrong checksum. *)
Definition bad_entry : TransactionOutputJSON.t :=
  {| TransactionOutputJSON.Address := hex.EncodeToString (addr1 ++ [x00]);
     TransactionOutputJSON.Coins := 100;
     TransactionOutputJSON.Hours := 5 |}.

End Sample.

(** ** Notions used by the further properties *)

(** The statuses the three constructors produce, for heights in the range
    of [uint64]. *)
Definition status_produced (s : TransactionStatus.t) : Prop :=
  s = NewUnconfirmedTransactionStatus
  \/ s = NewUnknownTransactionStatus
  \/ exists h, (0 <= h < 2 ^ 64)%Z /\ NewConfirmedTransactionStatus h = Returned s.

(** More concrete values. *)
Module Cases.

(** [Sample.tx1] with another length, type and inner hash; it does not
    pass verification. *)
Definition tx1_relabelled : coin.Transaction.t :=
  {| coin.Transaction.Length := 0;
     coin.Transaction.Type_ := 9;
     coin.Transaction.InnerHash := replicate 32 x08;
     coin.Transaction.Sigs := coin.Transaction.Sigs Sample.tx1;
     coin.Transaction.In := coin.Transaction.In Sample.tx1;
     coin.Transaction.Out := coin.Transaction.Out Sample.tx1 |}.

(** An output entry whose address text is the text of [Sample.addr1]. *)
Definition good_entry : TransactionOutputJSON.t :=
  {| TransactionOutputJSON.Address := Sample.address_text Sample.addr1;
     TransactionOutputJSON.Coins := 100;
     TransactionOutputJSON.Hours := 5 |}.

Definition header1 : coin.BlockHeader.t :=
  {| coin.BlockHeader.Version := 1; coin.BlockHeader.Time := 1400000000;
     coin.BlockHeader.BkSeq := 1; coin.BlockHeader.Fee := 0;
     coin.BlockHeader.PrevHash := replicate 32 x05;
     coin.BlockHeader.BodyHash := replicate 32 x06 |}.

Definition block1 : coin.Block.t :=
  {| coin.Block.Head := header1;
     coin.Block.Body := coin.BlockBody.mk [Sample.tx1; tx1_relabelled] |}.

Definition uxout (a : cipher.Address) (c h : Z) : coin.UxOut.t :=
  coin.UxOut.mk (coin.UxBody.mk a c h).

(** A visor over a chain of one block, two unspent outputs and one
    unconfirmed transaction. *)
Definition visor1 : Visor.t :=
  {| Visor.Blockchain :=
       {| coin.Blockchain.Blocks := [block1];
          coin.Blockchain.Unspent :=
            coin.UnspentPool.mk [uxout Sample.addr1 100 5; uxout Sample.addr2 50 0] |};
     Visor.Unconfirmed := UnconfirmedTxnPool.mk [Sample.tx1] |}.

End Cases.

(** * Properties *)

(** ** Control flow *)

Lemma bind_Next {R A B} (a : A) (k : A -> flow R B) : (Next a ≫= k) = k a.
Proof. reflexivity. Qed.

Lemma for_range_from_unfold {R A St} (i : nat) (x : A) (xs : list A)
    (step : nat -> A -> St -> flow R St) (st : St) :
  for_range_from i (x :: xs) step st
  = (step i x st ≫= for_range_from (S i) xs step).
Proof. reflexivity. Qed.

(** Whatever a loop returns early was returned by one of its steps. *)
Lemma for_range_from_return {R A St} (Q : R -> Prop)
    (step : nat -> A -> St -> flow R St) :
  (forall i x st r, step i x st = Return r -> Q r) ->
  forall xs i st r, for_range_from i xs step st = Return r -> Q r.
Proof.
  intros Hstep xs. induction xs as [|x xs IH]; intros i st r E.
  - discriminate E.
  - rewrite for_range_from_unfold in E.
    destruct (step i x st) as [st'| r' |msg] eqn:Es; simpl in E.
    + eapply IH, E.
    + inversion E; subst. eapply Hstep, Es.
    + discriminate E.
Qed.

(** Storing in the middle of a slice. *)
Lemma store_middle {R A} (done_ rest : list A) (old x : A) :
  store (R:=R) (done_ ++ old :: rest) (length done_) x = Next (done_ ++ x :: rest).
Proof.
  unfold store. rewrite length_app; simpl.
  destruct (decide (length done_ < length done_ + S (length rest))) as [_|Hn]; [|lia].
  f_equal. replace (length done_) with (length done_ + 0) at 1 by lia.
  by rewrite insert_app_r.
Qed.

(** A loop that stores [f x] at the position of each [x] it visits, in a
    slice reached through a field ([get], [set]) of its state: a slice of
    the right length ends up holding the image of the source. *)
Lemma store_loop_from {R A B St} (f : A -> B) (get : St -> list B)
    (set : list B -> St -> St)
    (Hsetget : forall st, set (get st) st = st)
    (Hgetset : forall l st, get (set l st) = l)
    (Hsetset : forall l l' st, set l (set l' st) = set l st)
    (xs : list A) :
  forall (done_ rest : list B) (st : St),
    length rest = length xs ->
    get st = done_ ++ rest ->
    for_range_from (R:=R) (length done_) xs
      (fun i x st => s ← store (get st) i (f x); mret (set s st)) st
    = Next (set (done_ ++ (f <$> xs)) st).
Proof.
  induction xs as [|x xs IH]; intros done_ rest st Hlen Hst.
  - destruct rest; [|discriminate Hlen]. simpl.
    rewrite <- Hst, Hsetget. reflexivity.
  - destruct rest as [|old rest]; [discriminate Hlen|].
    rewrite for_range_from_unfold, Hst, store_middle. simpl.
    specialize (IH (done_ ++ [f x]) rest (set (done_ ++ f x :: rest) st)).
    rewrite length_app in IH; simpl in IH.
    replace (length done_ + 1) with (S (length done_)) in IH by lia.
    rewrite IH.
    + rewrite Hsetset, <- app_assoc. reflexivity.
    + simpl in Hlen. lia.
    + rewrite Hgetset, <- app_assoc. reflexivity.
Qed.

Lemma store_loop {R A B St} (f : A -> B) (get : St -> list B)
    (set : list B -> St -> St) (zero : B)
    (Hsetget : forall st, set (get st) st = st)
    (Hgetset : forall l st, get (set l st) = l)
    (Hsetset : forall l l' st, set l (set l' st) = set l st)
    (xs : list A) (st : St) :
  get st = make zero (length xs) ->
  for_range (R:=R) xs
    (fun i x st => s ← store (get st) i (f x); mret (set s st)) st
  = Next (set (f <$> xs) st).
Proof.
  intros Hst. unfold for_range.
  apply (store_loop_from f get set Hsetget Hgetset Hsetset xs [] (make zero (length xs)) st).
  - apply length_replicate.
  - exact Hst.
Qed.

(** The loop of the mappers computes the image of its source. *)
Lemma fill_from {R A B} (zero : B) (f : A -> B) (src : list A) :
  forall (xs pre : list A) (done_ rest : list B),
    src = pre ++ xs ->
    length pre = length done_ ->
    length rest = length xs ->
    for_range_from (R:=R) (length done_) xs
      (fun i _ dst => x ← index src i; store dst i (f x)) (done_ ++ rest)
    = Next (done_ ++ (f <$> xs)).
Proof.
  induction xs as [|x xs IH]; intros pre done_ rest Hsrc Hpre Hlen.
  - destruct rest; [|discriminate Hlen]. reflexivity.
  - destruct rest as [|old rest]; [discriminate Hlen|].
    assert (Hidx : index (R:=R) src (length done_) = Next x).
    { unfold index. by rewrite Hsrc, <- Hpre, list_lookup_middle. }
    rewrite for_range_from_unfold, Hidx, bind_Next, store_middle, bind_Next.
    specialize (IH (pre ++ [x]) (done_ ++ [f x]) rest).
    rewrite !length_app in IH; simpl in IH.
    replace (length done_ + 1) with (S (length done_)) in IH by lia.
    rewrite <- !app_assoc in IH. simpl in IH.
    apply IH; [exact Hsrc | lia | simpl in Hlen; lia].
Qed.

Lemma fill_by_index_fmap {R A B} (zero : B) (f : A -> B) (src : list A) :
  fill_by_index (R:=R) zero f src = Next (f <$> src).
Proof.
  unfold fill_by_index, for_range.
  apply (fill_from zero f src src [] [] (make zero (length src)));
    [reflexivity | reflexivity | apply length_replicate].
Qed.

(** ** Transaction status *)

Lemma NewConfirmedTransactionStatus_pos (h : Z) :
  h <> 0%Z ->
  NewConfirmedTransactionStatus h
  = Returned (TransactionStatus.mk false false true h).
Proof.
  intros Hh. unfold NewConfirmedTransactionStatus.
  destruct (decide (h = 0%Z)); [contradiction | reflexivity].
Qed.

(** C7, as stated, fails: a confirmed status of height 0 is not turned
    into an error result handed to the caller; the constructor panics. *)
Lemma C7_height_zero_panics :
  NewConfirmedTransactionStatus 0
  = Panicked "Invalid confirmed transaction height".
Proof. reflexivity. Qed.

(** C7 (amended): each constructor that returns yields a status with
    exactly one flag set.  The unconfirmed and the unknown status have
    height 0 and only their own flag; for every height [h >= 1] the
    confirmed status is returned with only the confirmed flag and height
    [h]; height 0 is rejected at construction, by a panic, and no status
    is produced. *)
Theorem C7_status_invariant (h : Z) (Hh : (1 <= h)%Z) :
  (active_flags NewUnconfirmedTransactionStatus = 1
   /\ TransactionStatus.Unconfirmed NewUnconfirmedTransactionStatus = true
   /\ TransactionStatus.Height NewUnconfirmedTransactionStatus = 0%Z)
  /\ (active_flags NewUnknownTransactionStatus = 1
      /\ TransactionStatus.Unknown NewUnknownTransactionStatus = true
      /\ TransactionStatus.Height NewUnknownTransactionStatus = 0%Z)
  /\ (exists s, NewConfirmedTransactionStatus h = Returned s
        /\ active_flags s = 1
        /\ TransactionStatus.Confirmed s = true
        /\ TransactionStatus.Height s = h)
  /\ (forall s, NewConfirmedTransactionStatus 0 <> Returned s).
Proof.
  repeat split.
  - eexists. split; [apply NewConfirmedTransactionStatus_pos; lia|].
    repeat split.
  - intros s E. discriminate E.
Qed.

Lemma C7_status_invariant_witness :
  (1 <= 3)%Z
  /\ exists s, NewConfirmedTransactionStatus 3 = Returned s
       /\ active_flags s = 1
       /\ TransactionStatus.Confirmed s = true
       /\ TransactionStatus.Height s = 3%Z.
Proof.
  split; [lia|].
  apply (C7_status_invariant 3). lia.
Defined.

(** ** Output entries of the codec *)

Section OutputCodec.
Context `{Cipher}.

(** C10: an output whose address survives the round trip through its
    checksummed text form survives the round trip through its JSON entry:
    decoding succeeds and gives back the same address, coins and hours. *)
Theorem C10_output_roundtrip (o : coin.TransactionOutput.t)
    (Haddr : DecodeBase58Address (Address_String (coin.TransactionOutput.Address o))
             = (coin.TransactionOutput.Address o, None)) :
  TransactionOutputFromJSON (NewTransactionOutputJSON o) = (o, None).
Proof.
  unfold TransactionOutputFromJSON, NewTransactionOutputJSON; simpl.
  rewrite Haddr. destruct o; reflexivity.
Qed.

(** C4 (amended): decoding one output entry.  When the address field
    fails checksummed address validation the entry is refused with the
    error ["Adress decode fail"] and the zero output; when it passes, the
    decoded output carries the validated address and the coin and hour
    amounts of the entry, unchanged. *)
Theorem C4_output_entry_decode (e : TransactionOutputJSON.t)
    (a : cipher.Address) (err : option error)
    (Hdec : DecodeBase58Address (TransactionOutputJSON.Address e) = (a, err)) :
  (err <> None ->
     TransactionOutputFromJSON e
     = (TransactionOutput_zero, Some (errors_New "Adress decode fail")))
  /\ (err = None ->
        exists out, TransactionOutputFromJSON e = (out, None)
          /\ coin.TransactionOutput.Address out = a
          /\ coin.TransactionOutput.Coins out = TransactionOutputJSON.Coins e
          /\ coin.TransactionOutput.Hours out = TransactionOutputJSON.Hours e).
Proof.
  unfold TransactionOutputFromJSON.
  destruct err as [msg|]; split; intros Herr; try congruence.
  - rewrite Hdec. reflexivity.
  - eexists. rewrite Hdec. repeat split.
Qed.

End OutputCodec.

(** ** Encoding a transaction *)

Section Encode.
Context `{Cipher} `{Coin} `{Json}.

(** C2 (amended): a transaction that fails verification is never encoded;
    [TransactionToJSON] panics with its own message and returns nothing. *)
Theorem C2_encode_refuses_unverified (tx : coin.Transaction.t)
    (Hbad : Transaction_Verify tx <> None) :
  TransactionToJSON tx
  = Panicked "Transaction Invalid: Cannot serialize to JSON".
Proof.
  unfold TransactionToJSON.
  destruct (Transaction_Verify tx) as [e|]; [reflexivity | congruence].
Qed.

(** On a transaction that passes verification the encoder returns the
    text of the document holding the hex of the signatures and of the
    inputs and the entries of the outputs, in the order of the
    transaction (when marshalling reports no error). *)
Lemma TransactionToJSON_verified (tx : coin.Transaction.t) (b : string) :
  Transaction_Verify tx = None ->
  json_MarshalIndent (encoded_document tx) EmptyString "  " = (b, None) ->
  TransactionToJSON tx = Returned b.
Proof.
  intros Hv Hm. unfold TransactionToJSON. rewrite Hv. simpl.
  rewrite (store_loop Sig_Hex TransactionJSON.Sigs TransactionJSON.with_Sigs EmptyString);
    [| by intros [] | done | done | done].
  simpl.
  rewrite (store_loop SHA256_Hex TransactionJSON.In TransactionJSON.with_In EmptyString);
    [| by intros [] | done | done | done].
  simpl.
  rewrite (store_loop NewTransactionOutputJSON TransactionJSON.Out
             TransactionJSON.with_Out TransactionOutputJSON.zero);
    [| by intros [] | done | done | done].
  simpl. unfold TransactionJSON.with_Out; simpl.
  unfold encoded_document in Hm. rewrite Hm. reflexivity.
Qed.

End Encode.

(** ** Decoding a document *)

Section Decode.
Context `{Cipher} `{Coin}.

(** Both loops of the decoder run the same step; the only value it
    returns early is [decode_failure]. *)
Lemma decode_step_return (o : TransactionJSON.t) (i : nat)
    (tx : coin.Transaction.t) (r : coin.Transaction.t * option error) :
  (s ← index (TransactionJSON.In o) i;
   let '(sig2, err) := SigFromHex s in
   (if err is Some _ then Return decode_failure else mret tt);;
   sigs ← store (coin.Transaction.Sigs tx) i sig2;
   mret (coin.Transaction.with_Sigs sigs tx)) = Return r ->
  r = decode_failure.
Proof.
  unfold index.
  destruct (TransactionJSON.In o !! i) as [s|]; simpl; [|discriminate].
  destruct (SigFromHex s) as [sig2 [e|]]; simpl.
  - intros E; inversion E; reflexivity.
  - unfold store. destruct (decide (i < length (coin.Transaction.Sigs tx)));
      cbv [mbind mret flow_bind flow_ret]; discriminate.
Qed.

(** Whatever the two names [txIn] and [o] refer to, a call that returns
    gives the zero transaction, with no error or with
    ["invalid signature"]. *)
Lemma decode_steps_returned (txIn o : TransactionJSON.t)
    (r : coin.Transaction.t * option error) :
  body (decode_steps txIn o) = Returned r ->
  r = (Transaction_zero, None) \/ r = decode_failure.
Proof.
  unfold decode_steps, for_range.
  match goal with
  | |- body (for_range_from 0 ?xs ?step ?st ≫= ?k) = _ -> _ =>
      destruct (for_range_from 0 xs step st) as [tx1|r1|msg] eqn:E1
  end; simpl.
  - match goal with
    | |- body (for_range_from 0 ?xs ?step ?st ≫= ?k) = _ -> _ =>
        destruct (for_range_from 0 xs step st) as [tx2|r2|msg] eqn:E2
    end; simpl.
    + intros E; inversion E; auto.
    + intros E; inversion E; subst. right.
      eapply (for_range_from_return (fun r => r = decode_failure)); [|exact E2].
      intros i x st r0. apply decode_step_return.
    + discriminate.
  - intros E; inversion E; subst. right.
    eapply (for_range_from_return (fun r => r = decode_failure)); [|exact E1].
    intros i x st r0. apply decode_step_return.
  - discriminate.
Qed.

Context `{Json}.

(** From its first line the decoder does the same on every text: the
    variable the loops read still holds the zero document, both loops are
    empty, and the zero transaction is returned without an error. *)
Lemma TransactionFromJSON_any (str : string) :
  TransactionFromJSON str = Returned (Transaction_zero, None).
Proof.
  unfold TransactionFromJSON.
  destruct (json_Unmarshal_value str TransactionJSON.zero); reflexivity.
Qed.

(** C3 (what the code does): the text of a document that holds, among its
    signatures, a string that [SigFromHex] refuses is decoded without any
    failure, and the transaction returned has no signature and no input:
    no entry of the document is decoded into it. *)
Theorem C3_bad_signature_accepted (d : TransactionJSON.t) (text : string)
    (i : nat) (s : string)
    (Htext : json_MarshalIndent d EmptyString "  " = (text, None))
    (Hs : TransactionJSON.Sigs d !! i = Some s)
    (Hbad : (SigFromHex s).2 <> None) :
  exists tx, TransactionFromJSON text = Returned (tx, None)
    /\ coin.Transaction.Sigs tx = []
    /\ coin.Transaction.In tx = [].
Proof.
  exists Transaction_zero. split; [apply TransactionFromJSON_any|].
  split; reflexivity.
Qed.

(** C5 (what the code does): the text of a document whose numbers of
    signatures and of inputs differ is decoded without any failure: the
    call returns the zero transaction and no error. *)
Theorem C5_count_mismatch_accepted (d : TransactionJSON.t) (text : string)
    (Htext : json_MarshalIndent d EmptyString "  " = (text, None))
    (Hcount : length (TransactionJSON.Sigs d) <> length (TransactionJSON.In d)) :
  TransactionFromJSON text = Returned (Transaction_zero, None).
Proof. apply TransactionFromJSON_any. Qed.

(** C6 (what the code does): when [json.Unmarshal] reports an error for
    the text, the decoder does not return it; the call returns the zero
    transaction and no error. *)
Theorem C6_parse_error_dropped (str : string) (e : error)
    (Herr : json_Unmarshal_value str TransactionJSON.zero = Some e) :
  TransactionFromJSON str = Returned (Transaction_zero, None).
Proof.
  unfold TransactionFromJSON. rewrite Herr. reflexivity.
Qed.

(** C1 (what the code does): a transaction that passes verification and
    has at least one input is encoded to a text, and decoding that text
    succeeds with the zero transaction, whose input list is not that of
    the transaction. *)
Theorem C1_roundtrip_gives_zero (t : coin.Transaction.t) (text : string)
    (Hvalid : Transaction_Verify t = None)
    (Htext : json_MarshalIndent (encoded_document t) EmptyString "  " = (text, None))
    (Hin : coin.Transaction.In t <> []) :
  TransactionToJSON t = Returned text
  /\ TransactionFromJSON text = Returned (Transaction_zero, None)
  /\ coin.Transaction.In Transaction_zero <> coin.Transaction.In t.
Proof.
  split; [apply TransactionToJSON_verified; assumption|].
  split; [apply TransactionFromJSON_any|].
  simpl. congruence.
Qed.

End Decode.

(** ** Readable transaction *)

Section Readable.
Context `{Cipher} `{Coin}.

Lemma NewReadableTransaction_returned (t : coin.Transaction.t) :
  NewReadableTransaction t
  = Returned
      {| ReadableTransaction.Length := coin.Transaction.Length t;
         ReadableTransaction.Type_ := coin.Transaction.Type_ t;
         ReadableTransaction.Hash := SHA256_Hex (Transaction_Hash t);
         ReadableTransaction.InnerHash := SHA256_Hex (coin.Transaction.InnerHash t);
         ReadableTransaction.Sigs := Sig_Hex <$> coin.Transaction.Sigs t;
         ReadableTransaction.In := SHA256_Hex <$> coin.Transaction.In t;
         ReadableTransaction.Out :=
           NewReadableTransactionOutput <$> coin.Transaction.Out t |}.
Proof.
  unfold NewReadableTransaction.
  rewrite !fill_by_index_fmap, !bind_Next. reflexivity.
Qed.

(** C8: the readable form of a transaction is always produced; its
    signature, input and output lists have the lengths of the
    transaction's lists; position [i] of each holds the hex of signature
    [i], the hex of input [i], the readable form of output [i] (address as
    checksummed text, coins and hours as they are); length and type are
    copied. *)
Theorem C8_readable_transaction (t : coin.Transaction.t) :
  exists r, NewReadableTransaction t = Returned r
    /\ ReadableTransaction.Length r = coin.Transaction.Length t
    /\ ReadableTransaction.Type_ r = coin.Transaction.Type_ t
    /\ (length (ReadableTransaction.Sigs r) = length (coin.Transaction.Sigs t)
        /\ length (ReadableTransaction.In r) = length (coin.Transaction.In t)
        /\ length (ReadableTransaction.Out r) = length (coin.Transaction.Out t))
    /\ (forall i, ReadableTransaction.Sigs r !! i
                  = Sig_Hex <$> coin.Transaction.Sigs t !! i)
    /\ (forall i, ReadableTransaction.In r !! i
                  = SHA256_Hex <$> coin.Transaction.In t !! i)
    /\ (forall i, ReadableTransaction.Out r !! i
                  = NewReadableTransactionOutput <$> coin.Transaction.Out t !! i)
    /\ Forall2 (fun o ro =>
                  ReadableTransactionOutput.Address ro
                  = Address_String (coin.TransactionOutput.Address o)
                  /\ ReadableTransactionOutput.Coins ro = coin.TransactionOutput.Coins o
                  /\ ReadableTransactionOutput.Hours ro = coin.TransactionOutput.Hours o)
         (coin.Transaction.Out t) (ReadableTransaction.Out r).
Proof.
  eexists. split; [apply NewReadableTransaction_returned|]. simpl.
  repeat split; try (by rewrite length_fmap);
    try (intros i; apply list_lookup_fmap).
  induction (coin.Transaction.Out t) as [|o outs IH]; simpl; constructor.
  - repeat split.
  - exact IH.
Qed.

(** ** Chain snapshot *)

(** C9: two snapshot calls in a row on the same visor give the same
    result and leave the visor as it was; the result is the readable form
    of the head's header with the two counts (or the panic of [Head()], if
    the chain has no head). *)
Theorem C9_snapshot_repeatable (v : Visor.t) :
  exists r, snapshot_twice v = (r, r, v)
    /\ NewBlockchainMetadata v = (r, v)
    /\ r = match Blockchain_Head (Visor.Blockchain v) with
           | Returned blk =>
               Returned
                 {| BlockchainMetadata.Head :=
                      NewReadableBlockHeader (coin.Block.Head blk);
                    BlockchainMetadata.Unspents :=
                      uint64_len (coin.UnspentPool.Pool
                                    (coin.Blockchain.Unspent (Visor.Blockchain v)));
                    BlockchainMetadata.Unconfirmed :=
                      uint64_len (UnconfirmedTxnPool.Txns (Visor.Unconfirmed v)) |}
           | Panicked msg => Panicked msg
           end.
Proof.
  assert (E : NewBlockchainMetadata v
              = (match Blockchain_Head (Visor.Blockchain v) with
                 | Returned blk =>
                     Returned
                       {| BlockchainMetadata.Head :=
                            NewReadableBlockHeader (coin.Block.Head blk);
                          BlockchainMetadata.Unspents :=
                            uint64_len (coin.UnspentPool.Pool
                                          (coin.Blockchain.Unspent (Visor.Blockchain v)));
                          BlockchainMetadata.Unconfirmed :=
                            uint64_len (UnconfirmedTxnPool.Txns (Visor.Unconfirmed v)) |}
                 | Panicked msg => Panicked msg
                 end, v)).
  { unfold NewBlockchainMetadata, op_bind, op_call, op_read, op_ret.
    destruct (Blockchain_Head (Visor.Blockchain v)); reflexivity. }
  eexists. split; [|split; [exact E | reflexivity]].
  unfold snapshot_twice. rewrite E. cbv beta iota. rewrite E. reflexivity.
Qed.

End Readable.

(** ** The hex primitives and the implementation of the interfaces *)

Lemma hex_byte_roundtrip (b : byte) :
  (hi ← hex.fromHexChar (hex.digit (Byte.to_N b / 16));
   lo ← hex.fromHexChar (hex.digit (Byte.to_N b mod 16));
   Byte.of_N (hi * 16 + lo)) = Some b.
Proof. destruct b; vm_compute; reflexivity. Qed.

Lemma hex_roundtrip (bs : list byte) :
  hex.DecodeString (hex.EncodeToString bs) = Some bs.
Proof.
  induction bs as [|b bs IH]; [reflexivity|].
  cbn [hex.EncodeToString hex.DecodeString].
  pose proof (hex_byte_roundtrip b) as Hb.
  destruct (hex.fromHexChar (hex.digit (Byte.to_N b / 16))) as [hi|];
    [|discriminate Hb].
  cbn [mbind option_bind] in *.
  destruct (hex.fromHexChar (hex.digit (Byte.to_N b mod 16))) as [lo|];
    [|discriminate Hb].
  cbn [mbind option_bind] in *.
  rewrite Hb, IH. reflexivity.
Qed.

(** Hex text has a fixed length: two characters for each byte. *)
Lemma hex_length (bs : list byte) :
  String.length (hex.EncodeToString bs) = 2 * length bs.
Proof. induction bs as [|b bs IH]; simpl; [reflexivity | rewrite IH; lia]. Qed.

Lemma Sample_sig_roundtrip (s : cipher.Sig) :
  length s = 65 ->
  @SigFromHex Sample.cipher_ops (@Sig_Hex Sample.cipher_ops s) = (s, None).
Proof.
  intros Hl. simpl. unfold Sample.fixed_from_hex.
  rewrite hex_roundtrip. destruct (decide (length s = 65)); [reflexivity | contradiction].
Qed.

Lemma Sample_address_roundtrip (a : cipher.Address) :
  length a = Sample.address_len ->
  @DecodeBase58Address Sample.cipher_ops (@Address_String Sample.cipher_ops a) = (a, None).
Proof.
  intros Hl. simpl. unfold Sample.address_parse, Sample.address_text.
  rewrite hex_roundtrip.
  rewrite (take_app_length' a [Sample.checksum a] Sample.address_len) by congruence.
  destruct (decide (a ++ [Sample.checksum a] = a ++ [Sample.checksum a])); [|contradiction].
  destruct (decide (length a = Sample.address_len)); [reflexivity | contradiction].
Qed.

(** ** The statements on concrete transactions and documents *)

Section Concrete.
#[local] Existing Instances Sample.cipher_ops Sample.coin_ops Sample.json_ops.

Lemma C10_output_roundtrip_witness :
  DecodeBase58Address (Address_String Sample.addr1) = (Sample.addr1, None)
  /\ TransactionOutputFromJSON
       (NewTransactionOutputJSON (coin.TransactionOutput.mk Sample.addr1 100 5))
     = (coin.TransactionOutput.mk Sample.addr1 100 5, None).
Proof.
  split; [vm_compute; reflexivity|].
  apply (C10_output_roundtrip (coin.TransactionOutput.mk Sample.addr1 100 5)).
  vm_compute; reflexivity.
Defined.

(** C4, as stated, fails: the text of a document with one output entry
    whose address does not pass the checksum is decoded without any
    failure; only the decoder of single entries refuses the entry, with an
    error that carries no position. *)
Lemma C4_bad_address_not_reported :
  TransactionFromJSON
    (Sample.text
       (Sample.doc [Sample.good_hex] [Sample.good_hex] [Sample.bad_entry]))
  = Returned (Transaction_zero, None)
  /\ TransactionOutputFromJSON Sample.bad_entry
     = (TransactionOutput_zero, Some "Adress decode fail").
Proof. repeat split; vm_compute; reflexivity. Qed.

Lemma C4_output_entry_decode_witness :
  DecodeBase58Address (TransactionOutputJSON.Address Sample.bad_entry)
  = (Address_zero, Some "invalid checksum")
  /\ TransactionOutputFromJSON Sample.bad_entry
     = (TransactionOutput_zero, Some (errors_New "Adress decode fail")).
Proof.
  split; [vm_compute; reflexivity|].
  apply (C4_output_entry_decode Sample.bad_entry Address_zero (Some "invalid checksum")).
  - vm_compute; reflexivity.
  - discriminate.
Defined.

(** C2, as stated, fails: encoding a transaction without inputs, which
    does not pass verification, hands no error result to the caller; the
    call panics. *)
Lemma C2_encode_unverified_panics :
  Transaction_Verify Sample.tx_no_inputs = Some "No inputs"
  /\ TransactionToJSON Sample.tx_no_inputs
     = Panicked "Transaction Invalid: Cannot serialize to JSON".
Proof. split; vm_compute; reflexivity. Qed.

Lemma C2_encode_refuses_unverified_witness :
  Transaction_Verify Sample.tx_no_inputs <> None
  /\ TransactionToJSON Sample.tx_no_inputs
     = Panicked "Transaction Invalid: Cannot serialize to JSON".
Proof.
  split; [vm_compute; discriminate|].
  apply (C2_encode_refuses_unverified Sample.tx_no_inputs).
  vm_compute; discriminate.
Defined.

Lemma C3_bad_signature_accepted_witness :
  json_MarshalIndent (Sample.doc [Sample.bad_hex] [Sample.bad_hex] [])
    EmptyString "  "
  = (Sample.text (Sample.doc [Sample.bad_hex] [Sample.bad_hex] []), None)
  /\ TransactionJSON.Sigs (Sample.doc [Sample.bad_hex] [Sample.bad_hex] []) !! 0
     = Some Sample.bad_hex
  /\ (SigFromHex Sample.bad_hex).2 <> None
  /\ exists tx,
       TransactionFromJSON
         (Sample.text (Sample.doc [Sample.bad_hex] [Sample.bad_hex] []))
       = Returned (tx, None)
       /\ coin.Transaction.Sigs tx = []
       /\ coin.Transaction.In tx = [].
Proof.
  split; [reflexivity|]. split; [reflexivity|].
  split; [vm_compute; discriminate|].
  apply (C3_bad_signature_accepted
           (Sample.doc [Sample.bad_hex] [Sample.bad_hex] [])
           (Sample.text (Sample.doc [Sample.bad_hex] [Sample.bad_hex] []))
           0 Sample.bad_hex).
  - reflexivity.
  - reflexivity.
  - vm_compute; discriminate.
Defined.

Lemma C5_count_mismatch_accepted_witness :
  json_MarshalIndent (Sample.doc [] [Sample.good_hex] []) EmptyString "  "
  = (Sample.text (Sample.doc [] [Sample.good_hex] []), None)
  /\ length (TransactionJSON.Sigs (Sample.doc [] [Sample.good_hex] []))
     <> length (TransactionJSON.In (Sample.doc [] [Sample.good_hex] []))
  /\ TransactionFromJSON (Sample.text (Sample.doc [] [Sample.good_hex] []))
     = Returned (Transaction_zero, None).
Proof.
  split; [reflexivity|]. split; [simpl; lia|].
  apply (C5_count_mismatch_accepted
           (Sample.doc [] [Sample.good_hex] [])
           (Sample.text (Sample.doc [] [Sample.good_hex] []))).
  - reflexivity.
  - simpl; lia.
Defined.

Lemma C6_parse_error_dropped_witness :
  json_Unmarshal_value "{" TransactionJSON.zero
  = Some "json: Unmarshal(non-pointer visor.TransactionJSON)"
  /\ TransactionFromJSON "{" = Returned (Transaction_zero, None).
Proof.
  split; [reflexivity|].
  apply (C6_parse_error_dropped "{" "json: Unmarshal(non-pointer visor.TransactionJSON)").
  reflexivity.
Defined.

Lemma C1_roundtrip_gives_zero_witness :
  Transaction_Verify Sample.tx1 = None
  /\ json_MarshalIndent (encoded_document Sample.tx1) EmptyString "  "
     = (Sample.text (encoded_document Sample.tx1), None)
  /\ coin.Transaction.In Sample.tx1 <> []
  /\ TransactionToJSON Sample.tx1
     = Returned (Sample.text (encoded_document Sample.tx1))
  /\ TransactionFromJSON (Sample.text (encoded_document Sample.tx1))
     = Returned (Transaction_zero, None)
  /\ coin.Transaction.In Transaction_zero <> coin.Transaction.In Sample.tx1.
Proof.
  split; [vm_compute; reflexivity|].
  split; [reflexivity|].
  split; [discriminate|].
  apply (C1_roundtrip_gives_zero Sample.tx1 (Sample.text (encoded_document Sample.tx1))).
  - vm_compute; reflexivity.
  - reflexivity.
  - discriminate.
Defined.

End Concrete.

(** * Further properties *)

(** ** The encoder *)

Section EncodeMore.
Context `{Cipher} `{Coin} `{Json}.

(** What [TransactionToJSON] does, case by case: the three loops always
    run to their end. *)
Lemma TransactionToJSON_outcome (tx : coin.Transaction.t) :
  TransactionToJSON tx
  = match Transaction_Verify tx with
    | Some _ => Panicked "Transaction Invalid: Cannot serialize to JSON"
    | None =>
        match json_MarshalIndent (encoded_document tx) EmptyString "  " with
        | (b, None) => Returned b
        | (_, Some _) => Panicked "Cannot serialize transaction as JSON"
        end
    end.
Proof.
  unfold TransactionToJSON.
  destruct (Transaction_Verify tx) as [e|]; [reflexivity|]. simpl.
  rewrite (store_loop Sig_Hex TransactionJSON.Sigs TransactionJSON.with_Sigs EmptyString);
    [| by intros [] | done | done | done].
  simpl.
  rewrite (store_loop SHA256_Hex TransactionJSON.In TransactionJSON.with_In EmptyString);
    [| by intros [] | done | done | done].
  simpl.
  rewrite (store_loop NewTransactionOutputJSON TransactionJSON.Out
             TransactionJSON.with_Out TransactionOutputJSON.zero);
    [| by intros [] | done | done | done].
  simpl. unfold TransactionJSON.with_Out, encoded_document; simpl.
  destruct (json_MarshalIndent _ _ _) as [b [e|]]; reflexivity.
Qed.

(** X1: [TransactionToJSON] returns a text exactly when the transaction
    passes verification and marshalling reports no error, and the text is
    then the marshalled document of the hex signatures, hex inputs and
    output entries, in the order of the transaction. *)
Theorem X1_encode_returns_iff (tx : coin.Transaction.t) (b : string) :
  TransactionToJSON tx = Returned b
  <-> Transaction_Verify tx = None
      /\ json_MarshalIndent (encoded_document tx) EmptyString "  " = (b, None).
Proof.
  rewrite TransactionToJSON_outcome.
  destruct (Transaction_Verify tx) as [e|].
  - split; [discriminate | intros [Hv _]; discriminate Hv].
  - destruct (json_MarshalIndent _ _ _) as [b' [e|]]; split.
    + discriminate.
    + intros [_ Hm]; discriminate Hm.
    + intros E; inversion E; auto.
    + intros [_ Hm]; inversion Hm; reflexivity.
Qed.

(** X2: the only panics of [TransactionToJSON] are its two [log.Panic]
    calls: one when verification fails, the other when verification
    passes and marshalling reports an error.  Its loops never index out
    of range. *)
Theorem X2_encode_panics (tx : coin.Transaction.t) (msg : string)
    (Hpanic : TransactionToJSON tx = Panicked msg) :
  (msg = "Transaction Invalid: Cannot serialize to JSON"
   /\ Transaction_Verify tx <> None)
  \/ (msg = "Cannot serialize transaction as JSON"
      /\ Transaction_Verify tx = None
      /\ (json_MarshalIndent (encoded_document tx) EmptyString "  ").2 <> None).
Proof.
  rewrite TransactionToJSON_outcome in Hpanic.
  destruct (Transaction_Verify tx) as [e|].
  - left. inversion Hpanic. split; [reflexivity | discriminate].
  - right. destruct (json_MarshalIndent _ _ _) as [b' [e|]]; [|discriminate Hpanic].
    inversion Hpanic. repeat split. discriminate.
Qed.

End EncodeMore.

(** ** Readable blocks *)

(** Loops whose steps agree do the same. *)
Lemma for_range_from_ext {R A St} (step step' : nat -> A -> St -> flow R St) :
  (forall i x st, step i x st = step' i x st) ->
  forall xs i st, for_range_from i xs step st = for_range_from i xs step' st.
Proof.
  intros Hstep xs. induction xs as [|x xs IH]; intros i st; [reflexivity|].
  rewrite !for_range_from_unfold, Hstep.
  destruct (step' i x st); simpl; [apply IH | reflexivity | reflexivity].
Qed.

Section ReadableMore.
Context `{Cipher} `{Coin}.

(** [NewReadableTransaction] is a function of the transaction: it always
    returns. *)
Lemma NewReadableTransaction_total :
  exists f, forall t, NewReadableTransaction t = Returned (f t).
Proof. eexists. intros t. apply NewReadableTransaction_returned. Qed.

Lemma Forall2_fmap_graph {A B} (P : A -> B -> Prop) (f : A -> B) (l : list A) :
  (forall x, P x (f x)) -> Forall2 P l (f <$> l).
Proof. intros Hf. induction l; simpl; constructor; auto. Qed.

(** X4: the readable form of a block body is always produced, for an
    empty body too; it has one readable transaction for each transaction
    of the body, in the same order, and entry [i] is the readable form of
    transaction [i]. *)
Theorem X4_readable_block_body (b : coin.BlockBody.t) :
  exists rs,
    NewReadableBlockBody b = Returned {| ReadableBlockBody.Transactions := rs |}
    /\ length rs = length (coin.BlockBody.Transactions b)
    /\ Forall2 (fun t r => NewReadableTransaction t = Returned r)
         (coin.BlockBody.Transactions b) rs.
Proof.
  destruct NewReadableTransaction_total as [f Hf].
  exists (f <$> coin.BlockBody.Transactions b).
  split; [|split; [apply length_fmap | apply Forall2_fmap_graph, Hf]].
  unfold NewReadableBlockBody, for_range.
  rewrite (for_range_from_ext _
             (fun i _ dst => x ← index (coin.BlockBody.Transactions b) i;
                             store dst i (f x))).
  - pose proof (fill_by_index_fmap (R:=ReadableBlockBody.t)
                  ReadableTransaction.zero f (coin.BlockBody.Transactions b)) as E.
    unfold fill_by_index, for_range in E. rewrite E. reflexivity.
  - intros i x st. unfold index.
    destruct (coin.BlockBody.Transactions b !! i) as [t|]; [|reflexivity].
    rewrite !bind_Next, Hf. reflexivity.
Qed.

(** X5: the readable form of a block is always produced: its header is
    the readable form of the block's header and its body holds the
    readable forms of the block's transactions, in order. *)
Theorem X5_readable_block (b : coin.Block.t) :
  exists rs,
    NewReadableBlock b
    = Returned {| ReadableBlock.Head := NewReadableBlockHeader (coin.Block.Head b);
                  ReadableBlock.Body := {| ReadableBlockBody.Transactions := rs |} |}
    /\ Forall2 (fun t r => NewReadableTransaction t = Returned r)
         (coin.BlockBody.Transactions (coin.Block.Body b)) rs.
Proof.
  destruct NewReadableTransaction_total as [f Hf].
  exists (f <$> coin.BlockBody.Transactions (coin.Block.Body b)).
  split; [|apply Forall2_fmap_graph, Hf].
  unfold NewReadableBlock, NewReadableBlockBody, for_range.
  rewrite (for_range_from_ext _
             (fun i _ dst =>
                x ← index (coin.BlockBody.Transactions (coin.Block.Body b)) i;
                store dst i (f x))).
  - pose proof (fill_by_index_fmap (R:=ReadableBlockBody.t)
                  ReadableTransaction.zero f
                  (coin.BlockBody.Transactions (coin.Block.Body b))) as E.
    unfold fill_by_index, for_range in E. rewrite E. reflexivity.
  - intros i x st. unfold index.
    destruct (coin.BlockBody.Transactions (coin.Block.Body b) !! i) as [t|];
      [|reflexivity].
    rewrite !bind_Next, Hf. reflexivity.
Qed.

End ReadableMore.

(** ** Output entries, statuses, snapshot counts *)

Section OutputMore.
Context `{Cipher}.

(** X12: an output entry whose address text decodes to an address that
    prints back as the same text is recovered by decoding the entry and
    encoding the result: decoding reports no error and the entry built
    from the decoded output is the entry itself. *)
Theorem X12_entry_roundtrip (e : TransactionOutputJSON.t) (a : cipher.Address)
    (Hdec : DecodeBase58Address (TransactionOutputJSON.Address e) = (a, None))
    (Hcanon : Address_String a = TransactionOutputJSON.Address e) :
  (TransactionOutputFromJSON e).2 = None
  /\ NewTransactionOutputJSON (TransactionOutputFromJSON e).1 = e.
Proof.
  unfold TransactionOutputFromJSON. rewrite Hdec. simpl. split; [reflexivity|].
  unfold NewTransactionOutputJSON. simpl. rewrite Hcanon. destruct e; reflexivity.
Qed.

End OutputMore.

(** X13: for a status made by one of the three constructors (heights
    being [uint64] values), the height tells whether the status is
    confirmed: the height is at least 1 exactly when the confirmed flag is
    set, and it is 0 otherwise. *)
Theorem X13_height_tells_confirmed (s : TransactionStatus.t)
    (Hs : status_produced s) :
  (TransactionStatus.Confirmed s = true <-> (1 <= TransactionStatus.Height s)%Z)
  /\ (TransactionStatus.Confirmed s = false -> TransactionStatus.Height s = 0%Z).
Proof.
  destruct Hs as [-> | [-> | [h [Hh E]]]].
  - simpl. repeat split; try discriminate; lia.
  - simpl. repeat split; try discriminate; lia.
  - unfold NewConfirmedTransactionStatus in E.
    destruct (decide (h = 0%Z)) as [->|Hne]; [discriminate E|].
    inversion E; subst s; simpl. repeat split; try discriminate; lia.
Qed.

(** X14: the constructors never collide.  Two calls of
    [NewConfirmedTransactionStatus] with the same outcome were given the
    same height, and no confirmed status is the unconfirmed or the
    unknown status. *)
Theorem X14_constructors_apart (h1 h2 : Z)
    (Heq : NewConfirmedTransactionStatus h1 = NewConfirmedTransactionStatus h2) :
  h1 = h2
  /\ NewConfirmedTransactionStatus h1 <> Returned NewUnconfirmedTransactionStatus
  /\ NewConfirmedTransactionStatus h1 <> Returned NewUnknownTransactionStatus
  /\ NewUnconfirmedTransactionStatus <> NewUnknownTransactionStatus.
Proof.
  unfold NewConfirmedTransactionStatus in *.
  destruct (decide (h1 = 0%Z)) as [->|H1], (decide (h2 = 0%Z)) as [->|H2];
    simpl in *; try discriminate Heq.
  - repeat split; discriminate.
  - inversion Heq. repeat split; discriminate.
Qed.

Section SnapshotMore.
Context `{Cipher} `{Coin}.

(** X15: when the chain has a head and the sizes fit in a [uint64], the
    snapshot reports the exact number of unspent outputs and of
    unconfirmed transactions, with the readable header of the head, and
    the visor is left as it was. *)
Theorem X15_snapshot_counts (v : Visor.t) (blk : coin.Block.t)
    (Hhead : Blockchain_Head (Visor.Blockchain v) = Returned blk)
    (Hpool : (Z.of_nat (length (coin.UnspentPool.Pool
                 (coin.Blockchain.Unspent (Visor.Blockchain v)))) < 2 ^ 64)%Z)
    (Htxns : (Z.of_nat (length (UnconfirmedTxnPool.Txns (Visor.Unconfirmed v)))
              < 2 ^ 64)%Z) :
  NewBlockchainMetadata v
  = (Returned
       {| BlockchainMetadata.Head := NewReadableBlockHeader (coin.Block.Head blk);
          BlockchainMetadata.Unspents :=
            Z.of_nat (length (coin.UnspentPool.Pool
                                (coin.Blockchain.Unspent (Visor.Blockchain v))));
          BlockchainMetadata.Unconfirmed :=
            Z.of_nat (length (UnconfirmedTxnPool.Txns (Visor.Unconfirmed v))) |},
     v).
Proof.
  unfold NewBlockchainMetadata, op_bind, op_call, op_read, op_ret.
  rewrite Hhead. unfold uint64_len.
  rewrite !Z.mod_small by lia. reflexivity.
Qed.

End SnapshotMore.

(** ** The further properties on concrete values *)

Section ConcreteMore.
#[local] Existing Instances Sample.cipher_ops Sample.coin_ops Sample.json_ops.

Lemma X2_encode_panics_witness :
  TransactionToJSON Sample.tx_no_inputs
  = Panicked "Transaction Invalid: Cannot serialize to JSON"
  /\ Transaction_Verify Sample.tx_no_inputs <> None.
Proof.
  split; [vm_compute; reflexivity|].
  destruct (X2_encode_panics Sample.tx_no_inputs
              "Transaction Invalid: Cannot serialize to JSON")
    as [[_ Hv] | [Hmsg _]].
  - vm_compute; reflexivity.
  - exact Hv.
  - discriminate Hmsg.
Defined.

Lemma X12_entry_roundtrip_witness :
  DecodeBase58Address (TransactionOutputJSON.Address Cases.good_entry)
  = (Sample.addr1, None)
  /\ (TransactionOutputFromJSON Cases.good_entry).2 = None
  /\ NewTransactionOutputJSON (TransactionOutputFromJSON Cases.good_entry).1
     = Cases.good_entry.
Proof.
  split; [vm_compute; reflexivity|].
  apply (X12_entry_roundtrip Cases.good_entry Sample.addr1);
    vm_compute; reflexivity.
Defined.

Lemma X13_height_tells_confirmed_witness :
  status_produced (TransactionStatus.mk false false true 3)
  /\ (TransactionStatus.Confirmed (TransactionStatus.mk false false true 3) = true
      <-> (1 <= 3)%Z).
Proof.
  assert (Hs : status_produced (TransactionStatus.mk false false true 3)).
  { right; right. exists 3%Z. split; [lia | reflexivity]. }
  split; [exact Hs|].
  apply (X13_height_tells_confirmed _ Hs).
Defined.

Lemma X14_constructors_apart_witness :
  NewConfirmedTransactionStatus 3 = NewConfirmedTransactionStatus 3
  /\ NewConfirmedTransactionStatus 3 <> Returned NewUnconfirmedTransactionStatus.
Proof.
  split; [reflexivity|].
  apply (X14_constructors_apart 3 3). reflexivity.
Defined.

Lemma X15_snapshot_counts_witness :
  Blockchain_Head (Visor.Blockchain Cases.visor1) = Returned Cases.block1
  /\ NewBlockchainMetadata Cases.visor1
     = (Returned
          {| BlockchainMetadata.Head := NewReadableBlockHeader Cases.header1;
             BlockchainMetadata.Unspents := 2;
             BlockchainMetadata.Unconfirmed := 1 |},
        Cases.visor1).
Proof.
  split; [reflexivity|].
  apply (X15_snapshot_counts Cases.visor1 Cases.block1);
    [reflexivity | simpl; lia | simpl; lia].
Defined.

End ConcreteMore.
